(** * Firstrade vs. S&P 500 analyzer: the financial-math helpers

    A shallow embedding of [firstrade_vs_sp500_app.py]: [xnpv], [xirr],
    [total_invested], [lump_cagr], [portfolio_cagr], [sp500_cagr_lumpsum]
    and [sp_xirr_equivalent].

    Conventions of the embedding.
    - A Python [float] is idealised as a real number: rounding, overflow
      and the infinities are not modelled.  The two non-real values the
      helpers can produce, [float("nan")] and a [complex] power, are kept
      as separate constructors of [number].  A power out of the range of a
      float, which Python reports as [OverflowError], is therefore not
      modelled either; the properties below are stated where the float
      computation is exact (bases 0, 1 and -1, exponents 0 and 1, sums in
      the order of the code) or concern only the kind of the outcome.
    - [xnpv] is embedded twice, once for each type its [rate] has at run
      time: a Python [float] ([xnpv]) and the [numpy.float64] that
      scipy's [newton] passes from [xirr] ([xnpv_np]).
    - A [datetime] is a count of microseconds; [(a - b).days] is the floor
      of the difference divided by one day, as [timedelta] normalises it.
    - A Python exception is an explicit [Raise] outcome.
    - The price download and scipy's root finder are not part of the
      repository: the price series is an argument, the root finder a
      section variable. *)

From Stdlib Require Import String.
From Stdlib Require Import Reals Lra Lia ZArith List Bool Permutation Sorted.
Import ListNotations.

Open Scope R_scope.

(** ** Outcomes of a Python expression *)

Inductive exn : Type :=
  | IndexError
  | ZeroDivisionError
  | TypeError
  | RuntimeError.

Inductive result (A : Type) : Type :=
  | Ok (a : A)
  | Raise (e : exn).

Arguments Ok {A} a.
Arguments Raise {A} e.

Definition bind {A B : Type} (m : result A) (k : A -> result B) : result B :=
  match m with
  | Ok a => k a
  | Raise e => Raise e
  end.

Notation "x <- m ;; k" := (bind m (fun x => k))
  (at level 61, m at next level, right associativity).

(** ** Numbers *)

(** What an arithmetic expression of the helpers can evaluate to. *)
Inductive number : Type :=
  | Float (x : R)
  | NaN
  | Complex.

(** [a + b]. *)
Definition num_add (a b : number) : number :=
  match a, b with
  | Complex, _ | _, Complex => Complex
  | NaN, _ | _, NaN => NaN
  | Float x, Float y => Float (x + y)
  end.

(** [a - b]. *)
Definition num_sub (a b : number) : number :=
  match a, b with
  | Complex, _ | _, Complex => Complex
  | NaN, _ | _, NaN => NaN
  | Float x, Float y => Float (x - y)
  end.

(** [a / b]: a zero float divisor raises; a complex power of a non-zero
    base is never zero. *)
Definition num_truediv (a b : number) : result number :=
  match b with
  | Float y =>
      if Req_dec_T y 0 then Raise ZeroDivisionError
      else Ok (match a with
               | Float x => Float (x / y)
               | NaN => NaN
               | Complex => Complex
               end)
  | NaN => Ok (match a with Complex => Complex | _ => NaN end)
  | Complex => Ok Complex
  end.

(** [float(x)]. *)
Definition py_float (a : number) : result number :=
  match a with
  | Complex => Raise TypeError
  | _ => Ok a
  end.

(** [iw == floor(iw)]. *)
Definition is_integral (iw : R) : bool :=
  if Req_dec_T (IZR (Zfloor iw)) iw then true else false.

(** [fmod(fabs(iw), 2.0) == 1.0], for an integral [iw]. *)
Definition is_odd (iw : R) : bool := Z.odd (Zfloor iw).

(** [iv ** iw] on floats, following the case analysis of CPython's
    [float_pow]; the library call on a positive base is the real power. *)
Definition float_pow (iv iw : R) : result number :=
  if Req_dec_T iw 0 then Ok (Float 1)
  else if Req_dec_T iv 0 then
    if Rlt_dec iw 0 then Raise ZeroDivisionError else Ok (Float 0)
  else if Rlt_dec iv 0 then
    if is_integral iw then
      let ix := if Req_dec_T (- iv) 1 then 1 else Rpower (- iv) iw in
      Ok (Float (if is_odd iw then - ix else ix))
    else Ok Complex
  else if Req_dec_T iv 1 then Ok (Float 1)
  else Ok (Float (Rpower iv iw)).

(** ** Dates *)

Abbreviation datetime := Z (only parsing).

Definition us_per_day : Z := 86400000000.

(** [(a - b).days]. *)
Definition timedelta_days (a b : datetime) : Z := ((a - b) / us_per_day)%Z.

(** Midnight of day number [n]. *)
Definition midnight (n : Z) : datetime := (n * us_per_day)%Z.

(** A calendar date: a [datetime] with no time of day. *)
Definition is_date (d : datetime) : Prop := (d mod us_per_day = 0)%Z.

(** ** Cash flows *)

Abbreviation cashflow := (datetime * R)%type (only parsing).

(** ** xnpv *)

(** The running [sum] of the generator of [xnpv]: terms are produced and
    added left to right, the first exception ends the evaluation. *)
Fixpoint xnpv_sum (rate : R) (t0 : datetime) (acc : number)
    (cashflows : list cashflow) : result number :=
  match cashflows with
  | [] => Ok acc
  | (date, cf) :: rest =>
      p <- float_pow (1 + rate) (IZR (timedelta_days date t0) / 365) ;;
      term <- num_truediv (Float cf) p ;;
      xnpv_sum rate t0 (num_add acc term) rest
  end.

(** [xnpv] at a Python [float] rate, as its signature has it. *)
Definition xnpv (rate : R) (cashflows : list cashflow) : result number :=
  match cashflows with
  | [] => Raise IndexError
  | (t0, _) :: _ =>
      s <- xnpv_sum rate t0 (Float 0) cashflows ;;
      py_float s
  end.

(** ** xnpv at a numpy rate *)

(** A [numpy.float64]: its arithmetic raises nothing and returns an
    infinity or a not-a-number instead. *)
Inductive npfloat : Type :=
  | Fin (x : R)
  | PosInf
  | NegInf
  | NotANumber.

Definition np_finite (v : npfloat) : bool :=
  match v with
  | Fin _ => true
  | _ => false
  end.

(** [x ** y] on a [numpy.float64] base and a float exponent: the [pow] of
    the C library. *)
Definition np_pow (x y : R) : npfloat :=
  if Req_dec_T y 0 then Fin 1
  else if Req_dec_T x 0 then
    if Rlt_dec y 0 then PosInf else Fin 0
  else if Rlt_dec x 0 then
    if is_integral y then
      Fin (if is_odd y then - Rpower (- x) y else Rpower (- x) y)
    else NotANumber
  else Fin (Rpower x y).

(** [cf / p], a float over a [numpy.float64]. *)
Definition np_truediv (cf : R) (p : npfloat) : npfloat :=
  match p with
  | Fin y =>
      if Req_dec_T y 0 then
        if Req_dec_T cf 0 then NotANumber
        else if Rlt_dec cf 0 then NegInf else PosInf
      else Fin (cf / y)
  | PosInf | NegInf => Fin 0
  | NotANumber => NotANumber
  end.

(** [a + b]. *)
Definition np_add (a b : npfloat) : npfloat :=
  match a, b with
  | NotANumber, _ | _, NotANumber => NotANumber
  | PosInf, NegInf | NegInf, PosInf => NotANumber
  | PosInf, _ | _, PosInf => PosInf
  | NegInf, _ | _, NegInf => NegInf
  | Fin x, Fin y => Fin (x + y)
  end.

(** The running [sum] of [xnpv] at a [numpy.float64] rate. *)
Fixpoint xnpv_np_sum (rate : R) (t0 : datetime) (acc : npfloat)
    (cashflows : list cashflow) : npfloat :=
  match cashflows with
  | [] => acc
  | (date, cf) :: rest =>
      let p := np_pow (1 + rate) (IZR (timedelta_days date t0) / 365) in
      xnpv_np_sum rate t0 (np_add acc (np_truediv cf p)) rest
  end.

(** [xnpv] at a [numpy.float64] rate. *)
Definition xnpv_np (rate : R) (cashflows : list cashflow) : result npfloat :=
  match cashflows with
  | [] => Raise IndexError
  | (t0, _) :: _ => Ok (xnpv_np_sum rate t0 (Fin 0) cashflows)
  end.

(** ** total_invested *)

(** [cf < 0]. *)
Definition is_outflow (cf : R) : bool :=
  if Rlt_dec cf 0 then true else false.

(** The builtin [sum]: starts from [0] and adds left to right. *)
Definition py_sum (xs : list R) : R := fold_left Rplus xs 0.

Definition total_invested (cashflows : list cashflow) : R :=
  - py_sum (filter is_outflow (map snd cashflows)).

(** ** lump_cagr *)

Definition lump_cagr (start_val end_val : R)
    (start_date end_date : datetime) : result number :=
  let years := IZR (timedelta_days end_date start_date) / 365 in
  if Req_dec_T years 0 then Ok NaN
  else
    ratio <- num_truediv (Float end_val) (Float start_val) ;;
    growth <- match ratio with
              | Float q => float_pow q (1 / years)
              | other => Ok other
              end ;;
    Ok (num_sub growth (Float 1)).

(** ** Indexing *)

(** [l[0]]. *)
Definition index_first {A : Type} (l : list A) : result A :=
  match l with
  | [] => Raise IndexError
  | x :: _ => Ok x
  end.

(** [l[-1]], and [s.iloc[-1]] on a series. *)
Fixpoint index_last {A : Type} (l : list A) : result A :=
  match l with
  | [] => Raise IndexError
  | [x] => Ok x
  | _ :: tl => index_last tl
  end.

Definition portfolio_cagr (cashflows : list cashflow) (current_value : R)
    : result number :=
  let invested := total_invested cashflows in
  first <- index_first cashflows ;;
  final <- index_last cashflows ;;
  lump_cagr invested current_value (fst first) (fst final).

(** ** Prices *)

(** The [Close] column: prices indexed by date, ascending. *)
Abbreviation price_series := (list (datetime * R)) (only parsing).

(** [prices[prices.index <= date].iloc[-1]]. *)
Definition price_at (prices : price_series) (date : datetime) : result R :=
  p <- index_last (filter (fun p => (fst p <=? date)%Z) prices) ;;
  Ok (snd p).

(** ** The synthetic S&P cash flows *)

(** The loop of [sp_xirr_equivalent].  The prices are numpy scalars, so
    [(-amt) / px] does not raise; the price series holds positive prices
    only. *)
Fixpoint accumulate_shares (prices : price_series) (shares : R)
    (entries : list cashflow) : result R :=
  match entries with
  | [] => Ok shares
  | (date, amt) :: rest =>
      if is_outflow amt then
        px <- price_at prices date ;;
        accumulate_shares prices (shares + (- amt) / px) rest
      else accumulate_shares prices shares rest
  end.

(** The list [synthetic] that [sp_xirr_equivalent] hands to [xirr], for
    the downloaded price series [prices]. *)
Definition synthetic_cashflows (prices : price_series)
    (cashflows : list cashflow) : result (list cashflow) :=
  _begin <- index_first cashflows ;;
  final <- index_last cashflows ;;
  shares <- accumulate_shares prices 0 (removelast cashflows) ;;
  last_px <- index_last prices ;;
  let final_value := shares * snd last_px in
  Ok (removelast cashflows ++ [(fst final, final_value)]).

(** ** The functions that call outside the repository *)

Section External.

(** [scipy.optimize.newton(func, x0)]: it calls [func] at
    [numpy.float64] rates. *)
Variable newton : (R -> result npfloat) -> R -> result number.

(** [download_prices(TICKER, start, end)]. *)
Variable download_prices : datetime -> datetime -> result price_series.

Definition xirr (cashflows : list cashflow) : result number :=
  match newton (fun r => xnpv_np r cashflows) (1 / 10) with
  | Ok root => py_float root
  | Raise RuntimeError => Ok NaN
  | Raise e => Raise e
  end.


Definition sp_xirr_equivalent (cashflows : list cashflow)
    : result number :=
  first <- index_first cashflows ;;
  final <- index_last cashflows ;;
  prices <- download_prices (fst first) (fst final) ;;
  synthetic <- synthetic_cashflows prices cashflows ;;
  xirr synthetic.

End External.

(** ** Notions of the specification *)

(** The sum of the magnitudes of the strictly negative amounts. *)
Fixpoint outflow_magnitudes (cashflows : list cashflow) : R :=
  match cashflows with
  | [] => 0
  | (_, cf) :: rest =>
      (if Rlt_dec cf 0 then Rabs cf else 0) + outflow_magnitudes rest
  end.

(** A price exists on or before [date]. *)
Definition priced (prices : price_series) (date : datetime) : bool :=
  existsb (fun p => (fst p <=? date)%Z) prices.

(** Every lookup the builder makes is defined: the series is not empty and
    each outflow before the valuation has a price on or before its date. *)
Definition lookups_defined (prices : price_series)
    (cashflows : list cashflow) : Prop :=
  prices <> [] /\
  Forall (fun c => is_outflow (snd c) = true -> priced prices (fst c) = true)
         (removelast cashflows).

(** The price series stops at [date], as a download up to [date] does. *)
Definition ends_by (prices : price_series) (date : datetime) : Prop :=
  Forall (fun p => (fst p <= date)%Z) prices.

(** Every price of the series is positive. *)
Definition positive_prices (prices : price_series) : Prop :=
  Forall (fun p => 0 < snd p) prices.

(** The year fraction of an entry, counted from [t0]. *)
Definition year_fraction (t0 : datetime) (c : cashflow) : R :=
  IZR (timedelta_days (fst c) t0) / 365.

(** The amount of an entry, its sign flipped when the entry lies an odd
    number of years from [t0]. *)
Definition alternating (t0 : datetime) (c : cashflow) : R :=
  if is_odd (year_fraction t0 c) then - snd c else snd c.

(** ** Notions used for the functions beyond the claims *)

(** Every date moved by the same [shift]. *)
Definition shift_dates (shift : Z) (cashflows : list cashflow)
    : list cashflow :=
  map (fun c => ((fst c + shift)%Z, snd c)) cashflows.

(** The dates of a series are in ascending order. *)
Definition ascending (l : list (datetime * R)) : Prop :=
  StronglySorted (fun a b => (fst a <= fst b)%Z) l.

(** ** The main panel: from the trade rows to the cash flows *)

(** One row of the export, its date already parsed. *)
Record trade_row : Type := {
  RecordType : string;
  TradeDate : datetime;
  Amount : R
}.

(** [trades["RecordType"] == "Trade"]. *)
Definition is_trade (row : trade_row) : bool :=
  String.eqb (RecordType row) "Trade".

(** [list.sort(key=lambda x: x[0])] is a stable sort on the date.  The
    result of a stable sort is determined by its input; it is computed
    here by insertion, an entry going in front of the first entry whose
    date is not earlier. *)
Fixpoint insert_by_date (c : cashflow) (l : list cashflow)
    : list cashflow :=
  match l with
  | [] => [c]
  | h :: t =>
      if (fst c <=? fst h)%Z then c :: h :: t
      else h :: insert_by_date c t
  end.

Definition sort_by_date (l : list cashflow) : list cashflow :=
  fold_right insert_by_date [] l.

(** The list [cflows] of the main panel: the rows of type Trade as
    (date, amount) pairs, sorted by date, then the valuation at midnight of
    the valuation date. *)
Definition build_cashflows (rows : list trade_row) (valuation_date : Z)
    (portfolio_now : R) : list cashflow :=
  let trades := filter is_trade rows in
  let cflows := map (fun row => (TradeDate row, Amount row)) trades in
  sort_by_date cflows ++ [(midnight valuation_date, portfolio_now)].

(** * Properties *)

(** ** Deciding comparisons of reals *)

Ltac decide_reals :=
  repeat match goal with
    | |- context [Req_dec_T ?a ?b] => destruct (Req_dec_T a b); try lra
    | |- context [Rlt_dec ?a ?b] => destruct (Rlt_dec a b); try lra
    end.

Lemma is_outflow_true (cf : R) : is_outflow cf = true <-> cf < 0.
Proof.
  unfold is_outflow. destruct (Rlt_dec cf 0); split; auto; discriminate.
Qed.

Lemma is_outflow_false (cf : R) : is_outflow cf = false <-> 0 <= cf.
Proof.
  unfold is_outflow. destruct (Rlt_dec cf 0); split; intros; try lra;
    try discriminate; auto.
Qed.

Lemma float_pow_base_one (iw : R) : float_pow 1 iw = Ok (Float 1).
Proof. unfold float_pow. decide_reals; reflexivity. Qed.

Lemma float_pow_exponent_zero (iv : R) : float_pow iv 0 = Ok (Float 1).
Proof. unfold float_pow. decide_reals; reflexivity. Qed.

Lemma float_truediv_one (x : R) :
  num_truediv (Float x) (Float 1) = Ok (Float x).
Proof.
  unfold num_truediv. decide_reals. now rewrite Rdiv_1_r.
Qed.

(** ** Days between datetimes *)

Lemma timedelta_days_same (d : datetime) : timedelta_days d d = 0%Z.
Proof. unfold timedelta_days. now rewrite Z.sub_diag. Qed.

Lemma timedelta_days_midnight (m n : Z) :
  timedelta_days (midnight m) (midnight n) = (m - n)%Z.
Proof.
  unfold timedelta_days, midnight.
  rewrite <- Z.mul_sub_distr_r. apply Z.div_mul. discriminate.
Qed.

Lemma is_date_midnight (d : datetime) :
  is_date d -> d = midnight (d / us_per_day).
Proof.
  unfold is_date, midnight. intros H.
  rewrite (Z.div_mod d us_per_day) at 1 by discriminate. lia.
Qed.

Lemma timedelta_days_dates (d1 d2 : datetime) :
  is_date d1 -> is_date d2 -> d1 <> d2 -> timedelta_days d2 d1 <> 0%Z.
Proof.
  intros H1 H2 Hne.
  rewrite (is_date_midnight d1 H1), (is_date_midnight d2 H2) in *.
  rewrite timedelta_days_midnight. intros Heq.
  apply Hne. f_equal. lia.
Qed.

Lemma years_nonzero (days : Z) : days <> 0%Z -> IZR days / 365 <> 0.
Proof.
  intros Hd Hy. apply Hd. apply eq_IZR.
  assert (IZR days = IZR days / 365 * 365) as -> by (field; lra).
  rewrite Hy. lra.
Qed.

(** ** Sums *)

Lemma fold_left_Rplus_acc (xs : list R) (a : R) :
  fold_left Rplus xs a = a + fold_left Rplus xs 0.
Proof.
  revert a. induction xs as [|x xs IH]; intros a; simpl.
  - lra.
  - rewrite IH, (IH (0 + x)). lra.
Qed.

Lemma py_sum_cons (x : R) (xs : list R) : py_sum (x :: xs) = x + py_sum xs.
Proof.
  unfold py_sum. simpl. rewrite fold_left_Rplus_acc. lra.
Qed.

Lemma py_sum_app (xs ys : list R) : py_sum (xs ++ ys) = py_sum xs + py_sum ys.
Proof.
  unfold py_sum. rewrite fold_left_app.
  now rewrite fold_left_Rplus_acc.
Qed.

Lemma total_invested_cons (d : datetime) (cf : R) (rest : list cashflow) :
  total_invested ((d, cf) :: rest)
  = (if Rlt_dec cf 0 then - cf else 0) + total_invested rest.
Proof.
  unfold total_invested, is_outflow. simpl.
  destruct (Rlt_dec cf 0).
  - rewrite py_sum_cons. lra.
  - lra.
Qed.

Lemma total_invested_app (xs ys : list cashflow) :
  total_invested (xs ++ ys) = total_invested xs + total_invested ys.
Proof.
  unfold total_invested. rewrite map_app, filter_app, py_sum_app. lra.
Qed.

Lemma outflow_magnitudes_nonneg (cashflows : list cashflow) :
  0 <= outflow_magnitudes cashflows.
Proof.
  induction cashflows as [|[d cf] rest IH]; simpl.
  - lra.
  - destruct (Rlt_dec cf 0).
    + pose proof (Rabs_pos cf). lra.
    + lra.
Qed.

(** C9. [total_invested] is the sum of the magnitudes of the strictly
    negative amounts, entries with a non-negative amount adding nothing,
    and so it is never negative. *)
Theorem total_invested_magnitudes (cashflows : list cashflow) :
  total_invested cashflows = outflow_magnitudes cashflows /\
  0 <= total_invested cashflows.
Proof.
  assert (total_invested cashflows = outflow_magnitudes cashflows) as E.
  { induction cashflows as [|[d cf] rest IH].
    - unfold total_invested, py_sum. simpl. lra.
    - rewrite total_invested_cons, IH. simpl.
      destruct (Rlt_dec cf 0); [rewrite Rabs_left by assumption|]; lra. }
  split; [exact E|]. rewrite E. apply outflow_magnitudes_nonneg.
Qed.

(** ** Present value at rate zero *)

Lemma xnpv_sum_rate_zero (t0 : datetime) (cashflows : list cashflow) (a : R) :
  xnpv_sum 0 t0 (Float a) cashflows
  = Ok (Float (fold_left Rplus (map snd cashflows) a)).
Proof.
  revert a. induction cashflows as [|[d cf] rest IH]; intros a;
    cbn [xnpv_sum map fold_left snd].
  - reflexivity.
  - replace (1 + 0) with 1 by lra.
    rewrite float_pow_base_one. cbn [bind].
    rewrite float_truediv_one. cbn [bind num_add]. apply IH.
Qed.

(** C5. At rate 0 the present value of a non-empty series is the plain
    sum of its amounts. *)
Theorem xnpv_rate_zero (cashflows : list cashflow) :
  cashflows <> [] ->
  xnpv 0 cashflows = Ok (Float (py_sum (map snd cashflows))).
Proof.
  destruct cashflows as [|[t0 cf0] rest]; [congruence|]. intros _.
  unfold xnpv. rewrite xnpv_sum_rate_zero. reflexivity.
Qed.

Lemma xnpv_rate_zero_witness :
  xnpv 0 [(midnight 0, -1000); (midnight 365, 1100)]
  = Ok (Float (py_sum [-1000; 1100])).
Proof.
  apply (xnpv_rate_zero [(midnight 0, -1000); (midnight 365, 1100)]).
  discriminate.
Defined.

(** Money in and out on the same day: every exponent is 0 and the present
    value is 0 at every rate. *)
Example xnpv_same_day (rate : R) (d : datetime) :
  xnpv rate [(d, -1000); (d, 1000)] = Ok (Float 0).
Proof.
  unfold xnpv. cbn [xnpv_sum]. rewrite timedelta_days_same.
  replace (0 / 365) with 0 by lra.
  rewrite float_pow_exponent_zero. cbn [bind].
  rewrite !float_truediv_one. cbn [bind num_add py_float].
  do 2 f_equal. lra.
Qed.

(** ** Lump-sum growth *)

(** C6. With the same start and end date the elapsed time is zero and
    [lump_cagr] returns the not-a-number sentinel, whatever the values:
    no division takes place. *)
Theorem lump_cagr_same_date (v1 v2 : R) (d : datetime) :
  lump_cagr v1 v2 d d = Ok NaN.
Proof.
  unfold lump_cagr. rewrite timedelta_days_same.
  destruct (Req_dec_T (0 / 365) 0) as [_|H]; [reflexivity|].
  exfalso. apply H. lra.
Qed.

Lemma lump_cagr_zero_days (v1 v2 : R) (d1 d2 : datetime) :
  timedelta_days d2 d1 = 0%Z -> lump_cagr v1 v2 d1 d2 = Ok NaN.
Proof.
  intros H. unfold lump_cagr. rewrite H.
  destruct (Req_dec_T (0 / 365) 0) as [_|N]; [reflexivity|].
  exfalso. apply N. lra.
Qed.

Lemma lump_cagr_no_growth_days (v : R) (d1 d2 : datetime) :
  v <> 0 -> timedelta_days d2 d1 <> 0%Z ->
  lump_cagr v v d1 d2 = Ok (Float 0).
Proof.
  intros Hv Hd. unfold lump_cagr.
  destruct (Req_dec_T _ 0) as [E|_].
  - exfalso. revert E. now apply years_nonzero.
  - unfold num_truediv. destruct (Req_dec_T v 0) as [|_]; [contradiction|].
    simpl. replace (v / v) with 1 by (field; assumption).
    rewrite float_pow_base_one. simpl. f_equal. f_equal. lra.
Qed.

(** C8. No growth: for a positive value and two distinct calendar dates,
    [lump_cagr v v d1 d2] is 0. *)
Theorem lump_cagr_no_growth (v : R) (d1 d2 : datetime) :
  0 < v -> is_date d1 -> is_date d2 -> d1 <> d2 ->
  lump_cagr v v d1 d2 = Ok (Float 0).
Proof.
  intros Hv H1 H2 Hne. apply lump_cagr_no_growth_days.
  - lra.
  - now apply timedelta_days_dates.
Qed.

Lemma lump_cagr_no_growth_witness :
  lump_cagr 1000 1000 (midnight 0) (midnight 365) = Ok (Float 0).
Proof.
  apply (lump_cagr_no_growth 1000 (midnight 0) (midnight 365)).
  - lra.
  - reflexivity.
  - reflexivity.
  - discriminate.
Defined.

(** 1000 growing to 2000 over one year of 365 days: a rate of 1. *)
Example lump_cagr_doubling :
  lump_cagr 1000 2000 (midnight 0) (midnight 365) = Ok (Float 1).
Proof.
  unfold lump_cagr. rewrite timedelta_days_midnight.
  change (365 - 0)%Z with 365%Z.
  replace (365 / 365) with 1 by lra.
  unfold num_truediv. decide_reals. cbn [bind].
  replace (2000 / 1000) with 2 by lra. replace (1 / 1) with 1 by lra.
  unfold float_pow. decide_reals. cbn [bind num_sub].
  rewrite Rpower_1 by lra. do 2 f_equal. lra.
Qed.

(** A same-day pair of datetimes that differ in the time of day also has
    zero elapsed days. *)
Lemma lump_cagr_same_day (v : R) :
  lump_cagr v v (midnight 0) (midnight 0 + 1)%Z = Ok NaN.
Proof. apply lump_cagr_zero_days. reflexivity. Qed.


Lemma lump_cagr_zero_start (end_val : R) (d1 d2 : datetime) :
  timedelta_days d2 d1 <> 0%Z ->
  lump_cagr 0 end_val d1 d2 = Raise ZeroDivisionError.
Proof.
  intros Hd. unfold lump_cagr.
  destruct (Req_dec_T _ 0) as [E|_].
  { exfalso. revert E. now apply years_nonzero. }
  unfold num_truediv. destruct (Req_dec_T 0 0); [reflexivity|lra].
Qed.





(** ** Present value at a rate of -1 or below *)

Lemma is_integral_zero : is_integral 0 = true.
Proof.
  unfold is_integral. rewrite (ZfloorZ 0).
  destruct (Req_dec_T 0 0); [reflexivity|lra].
Qed.

Lemma float_pow_zero_base (iw : R) :
  iw <> 0 ->
  float_pow 0 iw = Raise ZeroDivisionError \/ float_pow 0 iw = Ok (Float 0).
Proof.
  intros H. unfold float_pow.
  destruct (Req_dec_T iw 0); [contradiction|].
  destruct (Req_dec_T 0 0); [|lra].
  destruct (Rlt_dec iw 0); auto.
Qed.

Lemma float_pow_negative_base (iv iw : R) :
  iv < 0 ->
  (is_integral iw = true /\
   exists x, x <> 0 /\ float_pow iv iw = Ok (Float x)) \/
  (is_integral iw = false /\ float_pow iv iw = Ok Complex).
Proof.
  intros Hneg. unfold float_pow.
  destruct (Req_dec_T iw 0) as [->|Hw].
  { left. split; [apply is_integral_zero|]. exists 1. split; [lra|reflexivity]. }
  destruct (Req_dec_T iv 0); [lra|].
  destruct (Rlt_dec iv 0); [|contradiction].
  destruct (is_integral iw); [left|right; auto].
  split; [reflexivity|].
  assert (0 < (if Req_dec_T (- iv) 1 then 1 else Rpower (- iv) iw)) as Hpos.
  { destruct (Req_dec_T (- iv) 1); [lra|]. unfold Rpower. apply exp_pos. }
  eexists. split; [|reflexivity].
  destruct (is_odd iw); lra.
Qed.

Lemma xnpv_sum_rate_minus_one (t0 : datetime) (cashflows : list cashflow) :
  Exists (fun c => timedelta_days (fst c) t0 <> 0%Z) cashflows ->
  forall acc, xnpv_sum (-1) t0 acc cashflows = Raise ZeroDivisionError.
Proof.
  induction cashflows as [|[d cf] rest IH]; intros HEx acc.
  - inversion HEx.
  - cbn [xnpv_sum]. replace (1 + -1) with 0 by lra.
    destruct (Z.eq_dec (timedelta_days d t0) 0) as [E|N].
    + rewrite E. replace (0 / 365) with 0 by lra.
      rewrite float_pow_exponent_zero. cbn [bind].
      rewrite float_truediv_one. cbn [bind].
      apply IH. inversion HEx as [? ? H|]; subst; [|assumption].
      cbn [fst] in H. contradiction.
    + destruct (float_pow_zero_base _ (years_nonzero _ N)) as [-> | ->].
      * reflexivity.
      * cbn [bind]. unfold num_truediv.
        destruct (Req_dec_T 0 0); [reflexivity|lra].
Qed.

Section NegativeBase.

Variables (rate : R) (t0 : datetime).
Hypothesis rate_below : rate < -1.

Let base_negative : 1 + rate < 0.
Proof. lra. Qed.

(** One term of the sum: it never raises, and it is complex exactly
    when the year fraction is not integral. *)
Lemma xnpv_term_negative_base (c : cashflow) :
  (is_integral (year_fraction t0 c) = true /\
   exists y,
     (p <- float_pow (1 + rate) (year_fraction t0 c) ;;
      num_truediv (Float (snd c)) p) = Ok (Float y)) \/
  (is_integral (year_fraction t0 c) = false /\
   (p <- float_pow (1 + rate) (year_fraction t0 c) ;;
    num_truediv (Float (snd c)) p) = Ok Complex).
Proof.
  destruct (float_pow_negative_base (1 + rate) (year_fraction t0 c)
              base_negative) as [(Hi & x & Hx & ->) | (Hi & ->)].
  - left. split; [assumption|]. cbn [bind]. unfold num_truediv.
    destruct (Req_dec_T x 0); [contradiction|]. eauto.
  - right. split; [assumption|]. reflexivity.
Qed.

Lemma xnpv_sum_cons (acc : number) (d : datetime) (cf : R)
    (rest : list cashflow) :
  xnpv_sum rate t0 acc ((d, cf) :: rest)
  = (term <- (p <- float_pow (1 + rate) (year_fraction t0 (d, cf)) ;;
              num_truediv (Float (snd (d, cf))) p) ;;
     xnpv_sum rate t0 (num_add acc term) rest).
Proof.
  cbn [xnpv_sum]. unfold year_fraction. cbn [fst snd].
  destruct (float_pow _ _); reflexivity.
Qed.

Lemma xnpv_sum_complex_acc (cashflows : list cashflow) :
  xnpv_sum rate t0 Complex cashflows = Ok Complex.
Proof.
  induction cashflows as [|[d cf] rest IH]; [reflexivity|].
  rewrite xnpv_sum_cons.
  destruct (xnpv_term_negative_base (d, cf)) as [(_ & y & ->) | (_ & ->)];
    cbn [bind num_add]; exact IH.
Qed.

Lemma xnpv_sum_some_fractional (cashflows : list cashflow) :
  Exists (fun c => is_integral (year_fraction t0 c) = false) cashflows ->
  forall acc, xnpv_sum rate t0 acc cashflows = Ok Complex.
Proof.
  induction cashflows as [|[d cf] rest IH]; intros HEx acc.
  - inversion HEx.
  - rewrite xnpv_sum_cons.
    destruct (xnpv_term_negative_base (d, cf)) as [(Hi & y & ->) | (_ & ->)];
      cbn [bind].
    + apply IH. inversion HEx as [? ? H|]; subst; [|assumption].
      congruence.
    + replace (num_add acc Complex) with Complex by (now destruct acc).
      apply xnpv_sum_complex_acc.
Qed.

End NegativeBase.

Lemma is_integral_IZR (z : Z) : is_integral (IZR z) = true.
Proof.
  unfold is_integral. rewrite ZfloorZ.
  destruct (Req_dec_T (IZR z) (IZR z)); [reflexivity|contradiction].
Qed.

Lemma is_integral_between (z : Z) (x : R) :
  IZR z < x < IZR z + 1 -> is_integral x = false.
Proof.
  intros H. unfold is_integral. rewrite (Zfloor_eq z) by lra.
  destruct (Req_dec_T (IZR z) x); [lra|reflexivity].
Qed.

Lemma year_fraction_midnight (m n : Z) (cf : R) :
  year_fraction (midnight n) (midnight m, cf) = IZR (m - n) / 365.
Proof.
  unfold year_fraction. cbn [fst]. now rewrite timedelta_days_midnight.
Qed.

Lemma float_pow_minus_one_one : float_pow (-1) 1 = Ok (Float (-1)).
Proof.
  unfold float_pow, is_odd. rewrite (is_integral_IZR 1), (ZfloorZ 1).
  decide_reals. reflexivity.
Qed.

(** *** A base of -1 *)

Lemma is_odd_zero : is_odd 0 = false.
Proof. unfold is_odd. now rewrite (ZfloorZ 0). Qed.

Lemma float_pow_minus_one (y : R) :
  is_integral y = true ->
  float_pow (-1) y = Ok (Float (if is_odd y then - 1 else 1)).
Proof.
  intros Hy. unfold float_pow.
  destruct (Req_dec_T y 0) as [->|_]; [now rewrite is_odd_zero|].
  destruct (Req_dec_T (-1) 0); [lra|].
  destruct (Rlt_dec (-1) 0); [|lra].
  rewrite Hy. destruct (Req_dec_T (- -1) 1); [reflexivity|lra].
Qed.

Lemma Rpower_one (y : R) : Rpower 1 y = 1.
Proof. unfold Rpower. now rewrite ln_1, Rmult_0_r, exp_0. Qed.

Lemma np_pow_minus_one (y : R) :
  is_integral y = true ->
  np_pow (-1) y = Fin (if is_odd y then - 1 else 1).
Proof.
  intros Hy. unfold np_pow.
  destruct (Req_dec_T y 0) as [->|_]; [now rewrite is_odd_zero|].
  destruct (Req_dec_T (-1) 0); [lra|].
  destruct (Rlt_dec (-1) 0); [|lra].
  rewrite Hy. replace (- -1) with 1 by lra. now rewrite Rpower_one.
Qed.

Lemma alternating_quotient (t0 : datetime) (d : datetime) (cf : R) :
  cf / (if is_odd (IZR (timedelta_days d t0) / 365) then - 1 else 1)
  = alternating t0 (d, cf).
Proof.
  unfold alternating, year_fraction. cbn [fst snd].
  destruct (is_odd _); field.
Qed.

Lemma xnpv_sum_rate_minus_two (t0 : datetime) (cashflows : list cashflow) :
  Forall (fun c => is_integral (year_fraction t0 c) = true) cashflows ->
  forall a,
    xnpv_sum (-2) t0 (Float a) cashflows
    = Ok (Float (fold_left Rplus (map (alternating t0) cashflows) a)).
Proof.
  induction 1 as [|[d cf] rest Hd _ IH]; intros a; [reflexivity|].
  cbn [xnpv_sum map fold_left]. replace (1 + -2) with (-1) by lra.
  unfold year_fraction in Hd. cbn [fst] in Hd.
  rewrite (float_pow_minus_one _ Hd). cbn [bind]. unfold num_truediv.
  destruct (Req_dec_T _ 0) as [E|_].
  { destruct (is_odd _); lra. }
  cbn [bind num_add]. rewrite alternating_quotient. apply IH.
Qed.

Lemma xnpv_np_sum_rate_minus_two (t0 : datetime)
    (cashflows : list cashflow) :
  Forall (fun c => is_integral (year_fraction t0 c) = true) cashflows ->
  forall a,
    xnpv_np_sum (-2) t0 (Fin a) cashflows
    = Fin (fold_left Rplus (map (alternating t0) cashflows) a).
Proof.
  induction 1 as [|[d cf] rest Hd _ IH]; intros a; [reflexivity|].
  cbn [xnpv_np_sum map fold_left]. replace (1 + -2) with (-1) by lra.
  unfold year_fraction in Hd. cbn [fst] in Hd.
  rewrite (np_pow_minus_one _ Hd). unfold np_truediv.
  destruct (Req_dec_T _ 0) as [E|_].
  { destruct (is_odd _); lra. }
  cbn [np_add]. rewrite alternating_quotient. apply IH.
Qed.

(** *** A numpy rate of -1 or below *)

Lemma np_add_not_finite_l (a b : npfloat) :
  np_finite a = false -> np_finite (np_add a b) = false.
Proof. destruct a, b; cbn; congruence. Qed.

Lemma np_add_not_finite_r (a b : npfloat) :
  np_finite b = false -> np_finite (np_add a b) = false.
Proof. destruct a, b; cbn; congruence. Qed.

Lemma xnpv_np_sum_not_finite (rate : R) (t0 : datetime)
    (cashflows : list cashflow) (acc : npfloat) :
  np_finite acc = false ->
  np_finite (xnpv_np_sum rate t0 acc cashflows) = false.
Proof.
  revert acc. induction cashflows as [|[d cf] rest IH]; intros acc Hacc;
    [assumption|].
  cbn [xnpv_np_sum]. apply IH. now apply np_add_not_finite_l.
Qed.

Lemma xnpv_np_sum_rate_minus_one (t0 : datetime)
    (cashflows : list cashflow) :
  Exists (fun c => (0 < timedelta_days (fst c) t0)%Z) cashflows ->
  forall acc, np_finite (xnpv_np_sum (-1) t0 acc cashflows) = false.
Proof.
  induction 1 as [[d cf] rest Hd|[d cf] rest _ IH]; intros acc;
    cbn [xnpv_np_sum]; [|apply IH].
  apply xnpv_np_sum_not_finite, np_add_not_finite_r.
  cbn [fst] in Hd. replace (1 + -1) with 0 by lra.
  assert (0 < IZR (timedelta_days d t0) / 365) as Hy.
  { apply Rdiv_lt_0_compat; [|lra]. now apply (IZR_lt 0). }
  unfold np_pow.
  destruct (Req_dec_T _ 0); [lra|].
  destruct (Req_dec_T 0 0); [|lra].
  destruct (Rlt_dec _ 0); [lra|].
  unfold np_truediv. destruct (Req_dec_T 0 0); [|lra].
  destruct (Req_dec_T cf 0); [reflexivity|].
  destruct (Rlt_dec cf 0); reflexivity.
Qed.

Lemma xnpv_np_sum_nan (rate : R) (t0 : datetime)
    (cashflows : list cashflow) :
  xnpv_np_sum rate t0 NotANumber cashflows = NotANumber.
Proof.
  induction cashflows as [|[d cf] rest IH]; [reflexivity|].
  cbn [xnpv_np_sum np_add]. exact IH.
Qed.

Lemma xnpv_np_sum_some_fractional (rate : R) (t0 : datetime)
    (cashflows : list cashflow) :
  rate < -1 ->
  Exists (fun c => is_integral (year_fraction t0 c) = false) cashflows ->
  forall acc, xnpv_np_sum rate t0 acc cashflows = NotANumber.
Proof.
  intros Hr. induction 1 as [[d cf] rest Hd|[d cf] rest _ IH]; intros acc;
    cbn [xnpv_np_sum]; [|apply IH].
  unfold year_fraction in Hd. cbn [fst] in Hd.
  assert (np_pow (1 + rate) (IZR (timedelta_days d t0) / 365) = NotANumber)
    as ->.
  { unfold np_pow.
    destruct (Req_dec_T _ 0) as [E|_].
    { rewrite E, is_integral_zero in Hd. discriminate. }
    destruct (Req_dec_T (1 + rate) 0); [lra|].
    destruct (Rlt_dec (1 + rate) 0); [|lra].
    now rewrite Hd. }
  cbn [np_truediv].
  replace (np_add acc NotANumber) with NotANumber by (now destruct acc).
  apply xnpv_np_sum_nan.
Qed.

(** C3, as the code has it.  [xnpv] has no guard on the rate and no
    failure of its own; what happens at a rate of -1 or below depends on
    the type the rate has at run time.
    - A Python float rate: at -1 the call fails with [ZeroDivisionError]
      as soon as an entry lies a non-zero number of whole days from the
      first; below -1 it fails, by the [TypeError] of converting a complex
      sum unless a power has failed before, when the year fraction of some
      entry is not integral.
    - The [numpy.float64] rate of the solver: nothing is raised; at -1 with
      an entry a whole day or more after the first the result is an
      infinity or a not-a-number, below -1 with a year fraction that is
      not integral it is a not-a-number.
    - At -2, when every year fraction is integral, both return the sum of
      the amounts, the sign flipped at the odd years. *)
Theorem xnpv_rate_at_most_minus_one (rate : R) (cashflows : list cashflow)
    (first : cashflow) :
  rate <= -1 ->
  index_first cashflows = Ok first ->
  (rate = -1 ->
   Exists (fun c => timedelta_days (fst c) (fst first) <> 0%Z) cashflows ->
   xnpv rate cashflows = Raise ZeroDivisionError) /\
  (rate < -1 ->
   Exists (fun c => is_integral (year_fraction (fst first) c) = false)
          cashflows ->
   exists e, xnpv rate cashflows = Raise e) /\
  (rate = -1 ->
   Exists (fun c => (0 < timedelta_days (fst c) (fst first))%Z) cashflows ->
   exists v, xnpv_np rate cashflows = Ok v /\ np_finite v = false) /\
  (rate < -1 ->
   Exists (fun c => is_integral (year_fraction (fst first) c) = false)
          cashflows ->
   xnpv_np rate cashflows = Ok NotANumber) /\
  (rate = -2 ->
   Forall (fun c => is_integral (year_fraction (fst first) c) = true)
          cashflows ->
   xnpv rate cashflows
   = Ok (Float (py_sum (map (alternating (fst first)) cashflows))) /\
   xnpv_np rate cashflows
   = Ok (Fin (py_sum (map (alternating (fst first)) cashflows)))).
Proof.
  intros _ Hf. destruct cashflows as [|[t0 cf0] rest]; [discriminate|].
  injection Hf as <-. cbn [fst]. unfold xnpv, xnpv_np.
  split; [|split; [|split; [|split]]].
  - intros -> HEx. now rewrite xnpv_sum_rate_minus_one.
  - intros Hr HEx. exists TypeError.
    now rewrite xnpv_sum_some_fractional.
  - intros -> HEx. eexists. split; [reflexivity|].
    now apply xnpv_np_sum_rate_minus_one.
  - intros Hr HEx. now rewrite xnpv_np_sum_some_fractional.
  - intros -> HAll. split.
    + now rewrite xnpv_sum_rate_minus_two.
    + now rewrite xnpv_np_sum_rate_minus_two.
Qed.

Lemma xnpv_rate_at_most_minus_one_witness :
  xnpv (-1) [(midnight 0, -1000); (midnight 365, 1100)]
  = Raise ZeroDivisionError /\
  (exists e,
     xnpv (-2) [(midnight 0, -1000); (midnight 100, 1100)] = Raise e) /\
  (exists v,
     xnpv_np (-1) [(midnight 0, -1000); (midnight 365, 1100)] = Ok v /\
     np_finite v = false) /\
  xnpv_np (-2) [(midnight 0, -1000); (midnight 100, 1100)]
  = Ok NotANumber /\
  (xnpv (-2) [(midnight 0, -1000); (midnight 365, 1100)]
   = Ok (Float (py_sum (map (alternating (midnight 0))
                          [(midnight 0, -1000); (midnight 365, 1100)]))) /\
   xnpv_np (-2) [(midnight 0, -1000); (midnight 365, 1100)]
   = Ok (Fin (py_sum (map (alternating (midnight 0))
                        [(midnight 0, -1000); (midnight 365, 1100)])))).
Proof.
  assert (is_integral
            (year_fraction (midnight 0) (midnight 100, 1100)) = false)
    as Hfrac.
  { rewrite year_fraction_midnight. apply (is_integral_between 0).
    change (100 - 0)%Z with 100%Z. lra. }
  split; [|split; [|split; [|split]]].
  - apply (xnpv_rate_at_most_minus_one (-1)
             [(midnight 0, -1000); (midnight 365, 1100)]
             (midnight 0, -1000)); [lra|reflexivity|reflexivity|].
    apply Exists_cons_tl, Exists_cons_hd. cbn [fst].
    rewrite timedelta_days_midnight. discriminate.
  - apply (xnpv_rate_at_most_minus_one (-2)
             [(midnight 0, -1000); (midnight 100, 1100)]
             (midnight 0, -1000)); [lra|reflexivity|lra|].
    apply Exists_cons_tl, Exists_cons_hd. exact Hfrac.
  - apply (xnpv_rate_at_most_minus_one (-1)
             [(midnight 0, -1000); (midnight 365, 1100)]
             (midnight 0, -1000)); [lra|reflexivity|reflexivity|].
    apply Exists_cons_tl, Exists_cons_hd. cbn [fst].
    rewrite timedelta_days_midnight. reflexivity.
  - apply (xnpv_rate_at_most_minus_one (-2)
             [(midnight 0, -1000); (midnight 100, 1100)]
             (midnight 0, -1000)); [lra|reflexivity|lra|].
    apply Exists_cons_tl, Exists_cons_hd. exact Hfrac.
  - apply (xnpv_rate_at_most_minus_one (-2)
             [(midnight 0, -1000); (midnight 365, 1100)]
             (midnight 0, -1000)); [lra|reflexivity|reflexivity|].
    repeat constructor; cbn [fst]; rewrite year_fraction_midnight.
    + change (0 - 0)%Z with 0%Z. replace (0 / 365) with (IZR 0) by lra.
      apply is_integral_IZR.
    + change (365 - 0)%Z with 365%Z. replace (365 / 365) with (IZR 1) by lra.
      apply is_integral_IZR.
Defined.

(** C3 fails as stated: at rate -2, with the second entry one year after
    the first, the exponents are 0 and 1 and [xnpv] returns a value. *)
Lemma xnpv_rate_minus_two_returns :
  -2 <= -1 /\ (midnight 0 < midnight 365)%Z /\
  xnpv (-2) [(midnight 0, -1000); (midnight 365, 1100)]
  = Ok (Float (-2100)).
Proof.
  split; [lra|]. split; [reflexivity|].
  unfold xnpv. cbn [xnpv_sum]. rewrite !timedelta_days_midnight.
  change (0 - 0)%Z with 0%Z. change (365 - 0)%Z with 365%Z.
  replace (1 + -2) with (-1) by lra.
  replace (0 / 365) with 0 by lra. replace (365 / 365) with 1 by lra.
  rewrite float_pow_exponent_zero, float_pow_minus_one_one.
  cbn [bind]. unfold num_truediv. decide_reals.
  cbn [bind num_add py_float]. do 2 f_equal. lra.
Qed.

(** ** Indexing from the end *)

Lemma index_last_app {A : Type} (l : list A) (x : A) :
  index_last (l ++ [x]) = Ok x.
Proof.
  induction l as [|y l IH]; [reflexivity|].
  cbn [app index_last]. destruct (l ++ [x]) eqn:E; [|exact IH].
  destruct l; discriminate.
Qed.

Lemma index_last_split {A : Type} (l : list A) (x : A) :
  index_last l = Ok x -> l = removelast l ++ [x].
Proof.
  induction l as [|y l IH]; [discriminate|].
  destruct l as [|z l].
  - cbn. now intros [= ->].
  - intros H. change (y :: z :: l = y :: (removelast (z :: l) ++ [x])).
    f_equal. now apply IH.
Qed.

Lemma index_last_defined {A : Type} (l : list A) :
  l <> [] -> exists x, index_last l = Ok x.
Proof.
  intros Hne. destruct l as [|y l]; [contradiction|].
  exists (last (y :: l) y).
  rewrite (app_removelast_last y Hne) at 1. apply index_last_app.
Qed.

Lemma index_last_In {A : Type} (l : list A) (x : A) :
  index_last l = Ok x -> In x l.
Proof.
  intros H. rewrite (index_last_split l x H).
  apply in_or_app. right. now left.
Qed.

(** ** Price lookups *)

Lemma price_at_defined (prices : list (datetime * R)) (date : datetime) :
  priced prices date = true ->
  exists p, In p prices /\ price_at prices date = Ok (snd p).
Proof.
  unfold priced, price_at. intros H.
  apply existsb_exists in H. destruct H as (q & Hq & Hle).
  destruct (index_last_defined (filter (fun p => (fst p <=? date)%Z) prices))
    as [p Hp].
  - intros E. assert (In q (filter (fun p => (fst p <=? date)%Z) prices)) as F
      by (apply filter_In; auto).
    rewrite E in F. inversion F.
  - exists p. rewrite Hp. split; [|reflexivity].
    apply index_last_In in Hp. now apply filter_In in Hp.
Qed.

Lemma price_at_end (prices : list (datetime * R)) (date : datetime) :
  ends_by prices date ->
  price_at prices date = (p <- index_last prices ;; Ok (snd p)).
Proof.
  unfold ends_by, price_at. intros H.
  replace (filter (fun p => (fst p <=? date)%Z) prices) with prices;
    [reflexivity|].
  induction H as [|p l Hp Hl IH]; [reflexivity|].
  cbn [filter]. apply Z.leb_le in Hp. rewrite Hp. now f_equal.
Qed.

(** ** The share count *)

Lemma accumulate_shares_defined (prices : list (datetime * R))
    (entries : list cashflow) :
  Forall (fun c => is_outflow (snd c) = true -> priced prices (fst c) = true)
         entries ->
  forall shares, exists total,
    accumulate_shares prices shares entries = Ok total.
Proof.
  induction 1 as [|[d amt] rest Hhd _ IH]; intros shares.
  - now exists shares.
  - cbn [accumulate_shares]. cbn [fst snd] in Hhd.
    destruct (is_outflow amt); [|apply IH].
    destruct (price_at_defined prices d (Hhd eq_refl)) as (p & _ & ->).
    cbn [bind]. apply IH.
Qed.

(** Entries with a non-negative amount leave the share count alone. *)
Lemma accumulate_shares_outflows_only (prices : list (datetime * R))
    (entries : list cashflow) (shares : R) :
  accumulate_shares prices shares entries
  = accumulate_shares prices shares
      (filter (fun c => is_outflow (snd c)) entries).
Proof.
  revert shares. induction entries as [|[d amt] rest IH]; intros shares;
    [reflexivity|].
  cbn [accumulate_shares filter snd].
  destruct (is_outflow amt) eqn:E; [|apply IH].
  cbn [accumulate_shares]. rewrite E.
  destruct (price_at prices d); [|reflexivity].
  cbn [bind]. apply IH.
Qed.

Lemma accumulate_shares_nonneg (prices : list (datetime * R))
    (entries : list cashflow) :
  positive_prices prices ->
  forall shares total,
    0 <= shares ->
    accumulate_shares prices shares entries = Ok total ->
    0 <= total.
Proof.
  intros Hpos. induction entries as [|[d amt] rest IH]; intros shares total Hs.
  - cbn. intros [= <-]. assumption.
  - cbn [accumulate_shares]. destruct (is_outflow amt) eqn:E; [|now apply IH].
    unfold price_at.
    destruct (index_last _) as [p|] eqn:Hp; [|discriminate].
    cbn [bind]. intros H. eapply IH; [|exact H].
    apply index_last_In, filter_In in Hp. destruct Hp as [Hin _].
    unfold positive_prices in Hpos. rewrite Forall_forall in Hpos.
    specialize (Hpos p Hin). cbn beta in Hpos. apply is_outflow_true in E.
    assert (0 < - amt / snd p); [|lra].
    apply Rdiv_lt_0_compat; lra.
Qed.

(** What [synthetic_cashflows] returns once its three lookups succeed. *)
Lemma synthetic_cashflows_value (prices : list (datetime * R))
    (cashflows : list cashflow) (final : cashflow) (shares : R)
    (last_px : datetime * R) :
  index_last cashflows = Ok final ->
  accumulate_shares prices 0 (removelast cashflows) = Ok shares ->
  index_last prices = Ok last_px ->
  synthetic_cashflows prices cashflows
  = Ok (removelast cashflows ++ [(fst final, shares * snd last_px)]).
Proof.
  intros Hf Hs Hp. unfold synthetic_cashflows.
  destruct cashflows as [|c rest]; [discriminate|].
  cbn [index_first bind]. rewrite Hf. cbn [bind].
  rewrite Hs. cbn [bind]. rewrite Hp. reflexivity.
Qed.

Lemma synthetic_cashflows_defined (prices : list (datetime * R))
    (cashflows : list cashflow) (final : cashflow) :
  index_last cashflows = Ok final ->
  lookups_defined prices cashflows ->
  exists shares last_px,
    accumulate_shares prices 0 (removelast cashflows) = Ok shares /\
    index_last prices = Ok last_px /\
    synthetic_cashflows prices cashflows
    = Ok (removelast cashflows ++ [(fst final, shares * snd last_px)]).
Proof.
  intros Hf [Hne Hall].
  destruct (accumulate_shares_defined prices _ Hall 0) as [shares Hs].
  destruct (index_last_defined prices Hne) as [last_px Hp].
  exists shares, last_px. split; [assumption|]. split; [assumption|].
  now apply synthetic_cashflows_value.
Qed.

(** ** The synthetic series *)

(** Two purchases of 500 at prices 100 and 200, last price 250: 7.5 shares,
    worth 1875. *)
Example synthetic_cashflows_two_purchases :
  synthetic_cashflows
    [(midnight 0, 100); (midnight 1, 200); (midnight 2, 250)]
    [(midnight 0, -500); (midnight 1, -500); (midnight 2, 1300)]
  = Ok [(midnight 0, -500); (midnight 1, -500); (midnight 2, 1875)].
Proof.
  rewrite (synthetic_cashflows_value _ _ (midnight 2, 1300)
             (0 + - -500 / 100 + - -500 / 200) (midnight 2, 250));
    [|reflexivity| |reflexivity].
  - cbn [removelast app fst snd]. repeat f_equal. lra.
  - cbn [removelast accumulate_shares].
    rewrite !(proj2 (is_outflow_true (-500))) by lra.
    reflexivity.
Qed.

(** C10. For a non-empty series whose lookups are defined, the synthetic
    series holds every entry before the last one verbatim and in order,
    whatever the sign of its amount, and one final entry: it is as long as
    the input, its final entry carries the date of the input's last entry,
    and the shares in its final amount come from the negative amounts
    only. *)
Theorem synthetic_cashflows_keeps_every_entry (prices : list (datetime * R))
    (cashflows : list cashflow) :
  cashflows <> [] ->
  lookups_defined prices cashflows ->
  exists synthetic final shares last_px,
    synthetic_cashflows prices cashflows = Ok synthetic /\
    removelast synthetic = removelast cashflows /\
    length synthetic = length cashflows /\
    index_last cashflows = Ok final /\
    accumulate_shares prices 0
      (filter (fun c => is_outflow (snd c)) (removelast cashflows))
    = Ok shares /\
    index_last prices = Ok last_px /\
    index_last synthetic = Ok (fst final, shares * snd last_px).
Proof.
  intros Hne Hdef.
  destruct (index_last_defined cashflows Hne) as [final Hf].
  destruct (synthetic_cashflows_defined prices cashflows final Hf Hdef)
    as (shares & last_px & Hs & Hp & Hsyn).
  exists (removelast cashflows ++ [(fst final, shares * snd last_px)]),
    final, shares, last_px.
  split; [assumption|]. split; [apply removelast_last|].
  split.
  { rewrite (index_last_split cashflows final Hf) at 2.
    now rewrite !length_app. }
  split; [assumption|].
  split; [now rewrite <- accumulate_shares_outflows_only|].
  split; [assumption|apply index_last_app].
Qed.

Lemma synthetic_cashflows_keeps_every_entry_witness :
  exists synthetic final shares last_px,
    synthetic_cashflows
      [(midnight 0, 100); (midnight 2, 120)]
      [(midnight 0, -1000); (midnight 1, 50); (midnight 2, 1300)]
    = Ok synthetic /\
    removelast synthetic = [(midnight 0, -1000); (midnight 1, 50)] /\
    length synthetic = 3%nat /\
    index_last [(midnight 0, -1000); (midnight 1, 50); (midnight 2, 1300)]
    = Ok final /\
    accumulate_shares [(midnight 0, 100); (midnight 2, 120)] 0
      (filter (fun c => is_outflow (snd c))
              [(midnight 0, -1000); (midnight 1, 50)])
    = Ok shares /\
    index_last [(midnight 0, 100); (midnight 2, 120)] = Ok last_px /\
    index_last synthetic = Ok (fst final, shares * snd last_px).
Proof.
  apply (synthetic_cashflows_keeps_every_entry
           [(midnight 0, 100); (midnight 2, 120)]
           [(midnight 0, -1000); (midnight 1, 50); (midnight 2, 1300)]).
  - discriminate.
  - split; [discriminate|]. cbn [removelast].
    repeat constructor; intros _; reflexivity.
Defined.

(** C1, as the code has it.  For a series with last entry [final], lookups
    defined and a price series that stops at the date of [final], the
    synthetic series is every entry before the last one, unchanged and in
    order, followed by one entry at the date of [final] whose amount is
    the accumulated shares times the price at that date.  It is the
    outflows followed by the final entry when every entry before the last
    is an outflow. *)
Theorem synthetic_cashflows_shape (prices : list (datetime * R))
    (cashflows : list cashflow) (final : cashflow) :
  index_last cashflows = Ok final ->
  lookups_defined prices cashflows ->
  ends_by prices (fst final) ->
  exists shares px,
    accumulate_shares prices 0 (removelast cashflows) = Ok shares /\
    price_at prices (fst final) = Ok px /\
    synthetic_cashflows prices cashflows
    = Ok (removelast cashflows ++ [(fst final, shares * px)]) /\
    (Forall (fun c => is_outflow (snd c) = true) (removelast cashflows) ->
     synthetic_cashflows prices cashflows
     = Ok (filter (fun c => is_outflow (snd c)) (removelast cashflows)
           ++ [(fst final, shares * px)])).
Proof.
  intros Hf Hdef Hend.
  destruct (synthetic_cashflows_defined prices cashflows final Hf Hdef)
    as (shares & last_px & Hs & Hp & Hsyn).
  exists shares, (snd last_px).
  split; [assumption|].
  split; [rewrite (price_at_end _ _ Hend), Hp; reflexivity|].
  split; [assumption|].
  intros Hall. rewrite Hsyn. do 2 f_equal.
  symmetry. apply forallb_filter_id. apply forallb_forall.
  rewrite Forall_forall in Hall. exact Hall.
Qed.

Lemma synthetic_cashflows_shape_witness :
  exists shares px,
    accumulate_shares [(midnight 0, 100); (midnight 2, 120)] 0
      (removelast [(midnight 0, -1000); (midnight 1, 50); (midnight 2, 1300)])
    = Ok shares /\
    price_at [(midnight 0, 100); (midnight 2, 120)]
      (fst (midnight 2, 1300)) = Ok px /\
    synthetic_cashflows
      [(midnight 0, 100); (midnight 2, 120)]
      [(midnight 0, -1000); (midnight 1, 50); (midnight 2, 1300)]
    = Ok (removelast
            [(midnight 0, -1000); (midnight 1, 50); (midnight 2, 1300)]
          ++ [(fst (midnight 2, 1300), shares * px)]) /\
    (Forall (fun c => is_outflow (snd c) = true)
       (removelast
          [(midnight 0, -1000); (midnight 1, 50); (midnight 2, 1300)]) ->
     synthetic_cashflows
       [(midnight 0, 100); (midnight 2, 120)]
       [(midnight 0, -1000); (midnight 1, 50); (midnight 2, 1300)]
     = Ok (filter (fun c => is_outflow (snd c))
             (removelast
                [(midnight 0, -1000); (midnight 1, 50); (midnight 2, 1300)])
           ++ [(fst (midnight 2, 1300), shares * px)])).
Proof.
  apply (synthetic_cashflows_shape
           [(midnight 0, 100); (midnight 2, 120)]
           [(midnight 0, -1000); (midnight 1, 50); (midnight 2, 1300)]
           (midnight 2, 1300)).
  - reflexivity.
  - split; [discriminate|]. cbn [removelast].
    repeat constructor; intros _; reflexivity.
  - repeat constructor; discriminate.
Defined.

(** C1 fails as stated: an entry before the last one with a non-negative
    amount is part of the synthetic series. *)
Lemma synthetic_cashflows_keeps_inflow :
  synthetic_cashflows
    [(midnight 0, 100); (midnight 2, 120)]
    [(midnight 0, -1000); (midnight 1, 50); (midnight 2, 1300)]
  = Ok [(midnight 0, -1000); (midnight 1, 50); (midnight 2, 1200)] /\
  is_outflow 50 = false.
Proof.
  split; [|apply is_outflow_false; lra].
  rewrite (synthetic_cashflows_value _ _ (midnight 2, 1300)
             (0 + - -1000 / 100) (midnight 2, 120));
    [|reflexivity| |reflexivity].
  - cbn [removelast app fst snd]. repeat f_equal. lra.
  - cbn [removelast accumulate_shares].
    rewrite (proj2 (is_outflow_true (-1000))) by lra.
    rewrite (proj2 (is_outflow_false 50)) by lra.
    reflexivity.
Qed.

(** ** Invested total of the synthetic series *)

Lemma total_invested_valuation (d : datetime) (v : R) :
  0 <= v -> total_invested [(d, v)] = 0.
Proof.
  intros Hv. rewrite total_invested_cons.
  destruct (Rlt_dec v 0); [lra|].
  unfold total_invested, py_sum. cbn. lra.
Qed.

(** C7. For a series whose entries before the last are all outflows and
    whose last entry is a valuation (a non-negative amount), with lookups
    defined and positive prices, the synthetic series has exactly the
    invested total of the original: the outflows are copied verbatim and
    the final entry, shares times a price, is not negative. *)
Theorem synthetic_total_invested (prices : list (datetime * R))
    (cashflows : list cashflow) (final : cashflow) :
  index_last cashflows = Ok final ->
  0 <= snd final ->
  Forall (fun c => snd c < 0) (removelast cashflows) ->
  lookups_defined prices cashflows ->
  positive_prices prices ->
  exists synthetic,
    synthetic_cashflows prices cashflows = Ok synthetic /\
    total_invested synthetic = total_invested cashflows.
Proof.
  intros Hf Hval _ Hdef Hpos.
  destruct (synthetic_cashflows_defined prices cashflows final Hf Hdef)
    as (shares & last_px & Hs & Hp & Hsyn).
  eexists. split; [exact Hsyn|].
  rewrite (index_last_split cashflows final Hf) at 2.
  rewrite !total_invested_app. f_equal.
  destruct final as [d v]. cbn [fst snd] in *.
  rewrite !total_invested_valuation; [reflexivity|assumption|].
  apply Rmult_le_pos.
  - apply (accumulate_shares_nonneg prices (removelast cashflows) Hpos 0
             shares); [lra|exact Hs].
  - apply index_last_In in Hp. unfold positive_prices in Hpos.
    rewrite Forall_forall in Hpos. specialize (Hpos _ Hp).
    cbn beta in Hpos. lra.
Qed.

Lemma synthetic_total_invested_witness :
  exists synthetic,
    synthetic_cashflows
      [(midnight 0, 100); (midnight 1, 200); (midnight 2, 250)]
      [(midnight 0, -500); (midnight 1, -500); (midnight 2, 1300)]
    = Ok synthetic /\
    total_invested synthetic
    = total_invested
        [(midnight 0, -500); (midnight 1, -500); (midnight 2, 1300)].
Proof.
  apply (synthetic_total_invested
           [(midnight 0, 100); (midnight 1, 200); (midnight 2, 250)]
           [(midnight 0, -500); (midnight 1, -500); (midnight 2, 1300)]
           (midnight 2, 1300)).
  - reflexivity.
  - cbn [snd]. lra.
  - cbn [removelast]. repeat constructor; cbn [snd]; lra.
  - split; [discriminate|]. cbn [removelast].
    repeat constructor; intros _; reflexivity.
  - repeat constructor; cbn [snd]; lra.
Defined.

(** ** The exception handler of xirr *)

Section Handler.

Variable newton : (R -> result npfloat) -> R -> result number.

(** A [RuntimeError] of the root finder becomes the sentinel. *)
Lemma xirr_runtime_error (cashflows : list cashflow) :
  newton (fun r => xnpv_np r cashflows) (1 / 10) = Raise RuntimeError ->
  xirr newton cashflows = Ok NaN.
Proof. unfold xirr. now intros ->. Qed.

(** Any other exception of the root finder leaves [xirr]. *)
Lemma xirr_other_error (cashflows : list cashflow) (e : exn) :
  e <> RuntimeError ->
  newton (fun r => xnpv_np r cashflows) (1 / 10) = Raise e ->
  xirr newton cashflows = Raise e.
Proof.
  unfold xirr. intros He ->. destruct e; congruence.
Qed.

(** A real root is returned as it is. *)
Lemma xirr_root (cashflows : list cashflow) (root : R) :
  newton (fun r => xnpv_np r cashflows) (1 / 10) = Ok (Float root) ->
  xirr newton cashflows = Ok (Float root).
Proof. unfold xirr. now intros ->. Qed.

End Handler.

(** * Further properties of the helpers *)

(** ** The power on a positive base *)

Lemma float_pow_positive_base (iv iw : R) :
  0 < iv -> float_pow iv iw = Ok (Float (Rpower iv iw)).
Proof.
  intros Hpos. unfold float_pow.
  destruct (Req_dec_T iw 0) as [->|_].
  { now rewrite Rpower_O. }
  destruct (Req_dec_T iv 0); [lra|].
  destruct (Rlt_dec iv 0); [lra|].
  destruct (Req_dec_T iv 1) as [->|_]; [|reflexivity].
  now rewrite Rpower_one.
Qed.

(** ** xnpv and the dates *)

Lemma timedelta_days_shift (a b shift : Z) :
  timedelta_days (a + shift) (b + shift) = timedelta_days a b.
Proof.
  unfold timedelta_days. f_equal. lia.
Qed.

Lemma xnpv_sum_shift_dates (rate : R) (t0 shift : Z) (acc : number)
    (cashflows : list cashflow) :
  xnpv_sum rate (t0 + shift) acc (shift_dates shift cashflows)
  = xnpv_sum rate t0 acc cashflows.
Proof.
  revert acc. induction cashflows as [|[d cf] rest IH]; intros acc;
    [reflexivity|].
  cbn [shift_dates map xnpv_sum fst snd].
  rewrite timedelta_days_shift.
  destruct (float_pow _ _) as [p|]; [|reflexivity]. cbn [bind].
  destruct (num_truediv _ _) as [t|]; [|reflexivity]. cbn [bind].
  apply IH.
Qed.

(** X4. Only the differences between the dates matter: moving every date
    of a series by the same amount of time leaves the outcome of [xnpv]
    unchanged, at every rate, failures included. *)
Theorem xnpv_shift_dates (rate : R) (shift : Z) (cashflows : list cashflow) :
  xnpv rate (shift_dates shift cashflows) = xnpv rate cashflows.
Proof.
  destruct cashflows as [|[t0 cf0] rest]; [reflexivity|].
  pose proof (xnpv_sum_shift_dates rate t0 shift (Float 0)
                ((t0, cf0) :: rest)) as H.
  unfold xnpv. cbn [shift_dates map fst snd] in *. now rewrite H.
Qed.

Lemma xnpv_sum_same_day (rate : R) (t0 : datetime)
    (cashflows : list cashflow) (a : R) :
  Forall (fun c => timedelta_days (fst c) t0 = 0%Z) cashflows ->
  xnpv_sum rate t0 (Float a) cashflows
  = Ok (Float (fold_left Rplus (map snd cashflows) a)).
Proof.
  intros H. revert a. induction H as [|[d cf] rest Hd _ IH]; intros a;
    [reflexivity|].
  cbn [xnpv_sum map fold_left snd]. cbn [fst] in Hd. rewrite Hd.
  replace (0 / 365) with 0 by lra.
  rewrite float_pow_exponent_zero. cbn [bind].
  rewrite float_truediv_one. cbn [bind num_add]. apply IH.
Qed.

(** X5. When no entry lies a whole day or more after the first one (and
    none before it), nothing is discounted: at every rate, -1 and below
    included, the present value is the plain sum of the amounts. *)
Theorem xnpv_same_day_entries (rate : R) (cashflows : list cashflow)
    (first : cashflow) :
  index_first cashflows = Ok first ->
  Forall (fun c => timedelta_days (fst c) (fst first) = 0%Z) cashflows ->
  xnpv rate cashflows = Ok (Float (py_sum (map snd cashflows))).
Proof.
  intros Hf Hall. destruct cashflows as [|[t0 cf0] rest]; [discriminate|].
  injection Hf as <-. unfold xnpv. cbn [fst] in Hall.
  rewrite xnpv_sum_same_day by assumption. reflexivity.
Qed.

Lemma xnpv_same_day_entries_witness :
  xnpv (-3) [(midnight 0, -1000); ((midnight 0 + 1)%Z, 400)]
  = Ok (Float (py_sum (map snd [(midnight 0, -1000);
                                ((midnight 0 + 1)%Z, 400)]))).
Proof.
  apply (xnpv_same_day_entries (-3)
           [(midnight 0, -1000); ((midnight 0 + 1)%Z, 400)]
           (midnight 0, -1000)).
  - reflexivity.
  - repeat constructor.
Defined.

(** ** lump_cagr over one year *)

(** X9. Over exactly 365 whole days [lump_cagr] is the simple return
    [end / start - 1], for every end value and every start value other
    than 0, negative ones included. *)
Theorem lump_cagr_one_year (start_val end_val : R) (d1 d2 : datetime) :
  start_val <> 0 -> timedelta_days d2 d1 = 365%Z ->
  lump_cagr start_val end_val d1 d2 = Ok (Float (end_val / start_val - 1)).
Proof.
  intros Hs Hd. unfold lump_cagr. rewrite Hd.
  replace (365 / 365) with 1 by lra. replace (1 / 1) with 1 by lra.
  destruct (Req_dec_T 1 0); [lra|].
  unfold num_truediv. destruct (Req_dec_T start_val 0); [contradiction|].
  cbn [bind]. set (q := end_val / start_val).
  destruct (Rtotal_order q 0) as [H|[H|H]].
  - unfold float_pow, is_odd.
    rewrite (is_integral_IZR 1), (ZfloorZ 1).
    destruct (Req_dec_T 1 0); [lra|].
    destruct (Req_dec_T q 0); [lra|].
    destruct (Rlt_dec q 0); [|contradiction].
    cbn [Z.odd bind num_sub]. do 2 f_equal.
    destruct (Req_dec_T (- q) 1); [lra|].
    rewrite Rpower_1 by lra. lra.
  - rewrite H. unfold float_pow.
    destruct (Req_dec_T 1 0); [lra|].
    destruct (Req_dec_T 0 0); [|lra].
    destruct (Rlt_dec 1 0); [lra|]. reflexivity.
  - rewrite float_pow_positive_base by assumption.
    cbn [bind num_sub]. now rewrite Rpower_1.
Qed.

Lemma lump_cagr_one_year_witness :
  lump_cagr (-200) 100 (midnight 0) (midnight 365)
  = Ok (Float (100 / -200 - 1)).
Proof.
  apply (lump_cagr_one_year (-200) 100 (midnight 0) (midnight 365)).
  - lra.
  - now rewrite timedelta_days_midnight.
Defined.

(** ** portfolio_cagr *)

Lemma lump_cagr_no_index_error (start_val end_val : R)
    (d1 d2 : datetime) :
  lump_cagr start_val end_val d1 d2 <> Raise IndexError.
Proof.
  unfold lump_cagr, num_truediv, float_pow.
  repeat (match goal with
          | |- context [if ?c then _ else _] => destruct c
          end; cbn [bind]);
    cbn; congruence.
Qed.

Lemma total_invested_nonneg_amounts (cashflows : list cashflow) :
  Forall (fun c => 0 <= snd c) cashflows -> total_invested cashflows = 0.
Proof.
  induction 1 as [|[d cf] rest Hcf _ IH].
  - unfold total_invested, py_sum. cbn. lra.
  - rewrite total_invested_cons, IH. cbn [snd] in Hcf.
    destruct (Rlt_dec cf 0); lra.
Qed.

(** X10. [portfolio_cagr] fails with [IndexError] on the empty list and on
    no other input: the growth computation never gives that error. *)
Theorem portfolio_cagr_index_error (cashflows : list cashflow)
    (current_value : R) :
  portfolio_cagr cashflows current_value = Raise IndexError
  <-> cashflows = [].
Proof.
  unfold portfolio_cagr. destruct cashflows as [|c rest].
  - split; reflexivity.
  - destruct (index_last_defined (c :: rest)) as [final Hf]; [discriminate|].
    cbn [index_first bind]. rewrite Hf. cbn [bind].
    split; [|discriminate]. intros H.
    now apply lump_cagr_no_index_error in H.
Qed.

(** X11. A history without a single outflow has nothing invested: when its
    first and last dates are at least one whole day apart,
    [portfolio_cagr] divides by zero and fails with
    [ZeroDivisionError]. *)
Theorem portfolio_cagr_no_outflow (cashflows : list cashflow)
    (current_value : R) (first final : cashflow) :
  index_first cashflows = Ok first ->
  index_last cashflows = Ok final ->
  Forall (fun c => 0 <= snd c) cashflows ->
  timedelta_days (fst final) (fst first) <> 0%Z ->
  portfolio_cagr cashflows current_value = Raise ZeroDivisionError.
Proof.
  intros Hfirst Hfinal Hall Hd. unfold portfolio_cagr.
  rewrite Hfirst, Hfinal. cbn [bind].
  rewrite total_invested_nonneg_amounts by assumption.
  now apply lump_cagr_zero_start.
Qed.

Lemma portfolio_cagr_no_outflow_witness :
  portfolio_cagr [(midnight 0, 300); (midnight 365, 1300)] 1300
  = Raise ZeroDivisionError.
Proof.
  apply (portfolio_cagr_no_outflow
           [(midnight 0, 300); (midnight 365, 1300)] 1300
           (midnight 0, 300) (midnight 365, 1300)).
  - reflexivity.
  - reflexivity.
  - repeat constructor; cbn [snd]; lra.
  - cbn [fst]. rewrite timedelta_days_midnight. discriminate.
Defined.

(** X12. When the last entry lies less than a whole day after the first,
    as for a list of one entry, [portfolio_cagr] returns the not-a-number
    sentinel, whatever the amounts and the current value. *)
Theorem portfolio_cagr_same_day (cashflows : list cashflow)
    (current_value : R) (first final : cashflow) :
  index_first cashflows = Ok first ->
  index_last cashflows = Ok final ->
  timedelta_days (fst final) (fst first) = 0%Z ->
  portfolio_cagr cashflows current_value = Ok NaN.
Proof.
  intros Hfirst Hfinal Hd. unfold portfolio_cagr.
  rewrite Hfirst, Hfinal. cbn [bind]. now apply lump_cagr_zero_days.
Qed.

Lemma portfolio_cagr_same_day_witness :
  portfolio_cagr [(midnight 7, 1300)] 1300 = Ok NaN.
Proof.
  apply (portfolio_cagr_same_day [(midnight 7, 1300)] 1300
           (midnight 7, 1300) (midnight 7, 1300)).
  - reflexivity.
  - reflexivity.
  - apply timedelta_days_same.
Defined.

(** ** When the synthetic series can be built *)

Lemma index_last_raises {A : Type} (l : list A) (e : exn) :
  index_last l = Raise e -> e = IndexError /\ l = [].
Proof.
  destruct l as [|x l]; [now intros [= <-]|].
  destruct (index_last_defined (x :: l)) as [y Hy]; [discriminate|].
  rewrite Hy. discriminate.
Qed.

Lemma price_at_raises (prices : list (datetime * R)) (date : datetime)
    (e : exn) :
  price_at prices date = Raise e -> e = IndexError.
Proof.
  unfold price_at. destruct (index_last _) as [p|e'] eqn:E; [discriminate|].
  cbn [bind]. intros [= <-]. now apply index_last_raises in E.
Qed.

Lemma price_at_priced (prices : list (datetime * R)) (date : datetime)
    (px : R) :
  price_at prices date = Ok px -> priced prices date = true.
Proof.
  unfold price_at, priced.
  destruct (index_last _) as [p|] eqn:E; [|discriminate]. intros _.
  apply index_last_In, filter_In in E. apply existsb_exists.
  exists p. exact E.
Qed.

Lemma accumulate_shares_raises (prices : list (datetime * R))
    (entries : list cashflow) (shares : R) (e : exn) :
  accumulate_shares prices shares entries = Raise e -> e = IndexError.
Proof.
  revert shares. induction entries as [|[d amt] rest IH]; intros shares;
    [discriminate|].
  cbn [accumulate_shares]. destruct (is_outflow amt); [|apply IH].
  destruct (price_at prices d) as [px|e'] eqn:E; cbn [bind].
  - apply IH.
  - intros [= <-]. now apply price_at_raises in E.
Qed.

Lemma accumulate_shares_lookups (prices : list (datetime * R))
    (entries : list cashflow) (shares total : R) :
  accumulate_shares prices shares entries = Ok total ->
  Forall (fun c => is_outflow (snd c) = true -> priced prices (fst c) = true)
         entries.
Proof.
  revert shares. induction entries as [|[d amt] rest IH]; intros shares;
    [constructor|].
  cbn [accumulate_shares]. destruct (is_outflow amt) eqn:Ho.
  - destruct (price_at prices d) as [px|] eqn:E; [|discriminate].
    cbn [bind]. intros H. constructor; [|now apply IH in H].
    intros _. cbn [fst]. now apply price_at_priced in E.
  - intros H. constructor; [|now apply IH in H].
    cbn [snd]. congruence.
Qed.

(** X14. [synthetic_cashflows] succeeds exactly when the cash flows are
    not empty, the price series is not empty and every outflow before the
    last entry has a price on or before its date; every failure is an
    [IndexError]. *)
Theorem synthetic_cashflows_succeeds_iff (prices : list (datetime * R))
    (cashflows : list cashflow) :
  ((exists synthetic, synthetic_cashflows prices cashflows = Ok synthetic)
   <-> cashflows <> [] /\ lookups_defined prices cashflows) /\
  (forall e, synthetic_cashflows prices cashflows = Raise e ->
             e = IndexError).
Proof.
  split.
  - split.
    + intros [synthetic H]. unfold synthetic_cashflows in H.
      destruct cashflows as [|c rest]; [discriminate|].
      split; [discriminate|]. cbn [index_first bind] in H.
      destruct (index_last (c :: rest)) as [final|]; [|discriminate].
      cbn [bind] in H.
      destruct (accumulate_shares _ _ _) as [shares|] eqn:Hs; [|discriminate].
      cbn [bind] in H.
      destruct (index_last prices) as [last_px|] eqn:Hp; [|discriminate].
      split.
      * intros ->. discriminate.
      * now apply accumulate_shares_lookups in Hs.
    + intros [Hne Hdef].
      destruct (index_last_defined cashflows Hne) as [final Hf].
      destruct (synthetic_cashflows_defined prices cashflows final Hf Hdef)
        as (shares & last_px & _ & _ & H).
      eexists. exact H.
  - intros e. unfold synthetic_cashflows.
    destruct cashflows as [|c rest]; [now intros [= <-]|].
    cbn [index_first bind].
    destruct (index_last (c :: rest)) as [final|e1] eqn:Hf; cbn [bind].
    2:{ intros [= <-]. now apply index_last_raises in Hf. }
    destruct (accumulate_shares _ _ _) as [shares|e2] eqn:Hs; cbn [bind].
    2:{ intros [= <-]. now apply accumulate_shares_raises in Hs. }
    destruct (index_last prices) as [last_px|e3] eqn:Hp; cbn [bind].
    + discriminate.
    + intros [= <-]. now apply index_last_raises in Hp.
Qed.

(** ** The price lookup on an ascending series *)

Lemma ascending_filter (f : datetime * R -> bool) (l : list (datetime * R)) :
  ascending l -> ascending (filter f l).
Proof.
  unfold ascending. induction 1 as [|a l Hl IH Ha]; [constructor|].
  cbn [filter]. destruct (f a); [|exact IH].
  constructor; [exact IH|].
  rewrite Forall_forall in *. intros x Hx. apply Ha.
  now apply filter_In in Hx.
Qed.

Lemma ascending_last (l : list (datetime * R)) (x : datetime * R) :
  ascending l -> index_last l = Ok x ->
  Forall (fun y => (fst y <= fst x)%Z) l.
Proof.
  unfold ascending. induction 1 as [|a l Hl IH Ha]; [discriminate|].
  destruct l as [|b l].
  - cbn. intros [= ->]. constructor; [lia|constructor].
  - intros H. change (index_last (b :: l) = Ok x) in H.
    specialize (IH H). constructor; [|exact IH].
    rewrite Forall_forall in Ha. apply index_last_In in H.
    now apply Ha.
Qed.

(** X15. On a price series in ascending date order, a lookup at a date
    that has some price on or before it returns the latest such price: the
    price of an entry dated on or before the date, and no entry of the
    series on or before the date is dated later. *)
Theorem price_at_latest (prices : list (datetime * R)) (date : datetime) :
  ascending prices ->
  priced prices date = true ->
  exists p,
    price_at prices date = Ok (snd p) /\
    In p prices /\ (fst p <= date)%Z /\
    forall q, In q prices -> (fst q <= date)%Z -> (fst q <= fst p)%Z.
Proof.
  intros Hasc Hpr.
  destruct (price_at_defined prices date Hpr) as (p0 & _ & H0).
  unfold price_at in *.
  destruct (index_last _) as [p|] eqn:E; [|discriminate].
  exists p. split; [reflexivity|].
  pose proof (index_last_In _ _ E) as Hin. apply filter_In in Hin.
  destruct Hin as [Hin Hle]. apply Z.leb_le in Hle.
  split; [assumption|]. split; [assumption|].
  intros q Hq Hqd.
  pose proof (ascending_last _ _ (ascending_filter _ _ Hasc) E) as Hmax.
  rewrite Forall_forall in Hmax. apply Hmax.
  apply filter_In. split; [assumption|]. now apply Z.leb_le.
Qed.

Lemma price_at_latest_witness :
  exists p,
    price_at [(midnight 0, 100); (midnight 3, 120); (midnight 5, 90)]
      (midnight 4) = Ok (snd p) /\
    In p [(midnight 0, 100); (midnight 3, 120); (midnight 5, 90)] /\
    (fst p <= midnight 4)%Z /\
    forall q,
      In q [(midnight 0, 100); (midnight 3, 120); (midnight 5, 90)] ->
      (fst q <= midnight 4)%Z -> (fst q <= fst p)%Z.
Proof.
  apply (price_at_latest
           [(midnight 0, 100); (midnight 3, 120); (midnight 5, 90)]
           (midnight 4)).
  - unfold ascending. repeat constructor; discriminate.
  - reflexivity.
Defined.

(** ** The final value of the synthetic series *)




(** ** Indexing a mapped list *)



(** ** What the benchmark figures do not look at *)

Lemma synthetic_cashflows_valuation (prices : list (datetime * R))
    (entries : list cashflow) (d : datetime) (v v' : R) :
  synthetic_cashflows prices (entries ++ [(d, v)])
  = synthetic_cashflows prices (entries ++ [(d, v')]).
Proof.
  unfold synthetic_cashflows.
  rewrite !index_last_app, !removelast_last.
  destruct entries; reflexivity.
Qed.

(** X19. The S&P rate of return does not look at the amount of the
    valuation: two cash-flow lists that differ only in the amount of their
    last entry give the same outcome of [sp_xirr_equivalent], whatever the
    root finder and the price download do. *)
Theorem sp_xirr_equivalent_ignores_valuation
    (newton : (R -> result npfloat) -> R -> result number)
    (download_prices : datetime -> datetime -> result (list (datetime * R)))
    (entries : list cashflow) (d : datetime) (v v' : R) :
  sp_xirr_equivalent newton download_prices (entries ++ [(d, v)])
  = sp_xirr_equivalent newton download_prices (entries ++ [(d, v')]).
Proof.
  unfold sp_xirr_equivalent. rewrite !index_last_app.
  destruct entries as [|c rest]; cbn [app index_first bind fst].
  - destruct (download_prices d d) as [prices|]; [|reflexivity].
    cbn [bind].
    pose proof (synthetic_cashflows_valuation prices [] d v v') as H.
    cbn [app] in H. now rewrite H.
  - destruct (download_prices (fst c) d) as [prices|]; [|reflexivity].
    cbn [bind].
    pose proof (synthetic_cashflows_valuation prices (c :: rest) d v v')
      as H.
    cbn [app] in H. now rewrite H.
Qed.


(** ** The failures of xirr *)



(** ** The cash flows of the main panel *)

Lemma insert_by_date_permutation (c : cashflow) (l : list cashflow) :
  Permutation (insert_by_date c l) (c :: l).
Proof.
  induction l as [|h t IH]; [apply Permutation_refl|].
  cbn [insert_by_date]. destruct (fst c <=? fst h)%Z.
  - apply Permutation_refl.
  - apply perm_trans with (h :: c :: t).
    + now apply perm_skip.
    + apply perm_swap.
Qed.

Lemma sort_by_date_permutation (l : list cashflow) :
  Permutation (sort_by_date l) l.
Proof.
  induction l as [|c l IH]; [apply Permutation_refl|].
  cbn [sort_by_date fold_right].
  apply perm_trans with (c :: sort_by_date l).
  - apply insert_by_date_permutation.
  - now apply perm_skip.
Qed.

Lemma insert_by_date_ascending (c : cashflow) (l : list cashflow) :
  ascending l -> ascending (insert_by_date c l).
Proof.
  unfold ascending. induction 1 as [|h t Ht IH Hh].
  - repeat constructor.
  - cbn [insert_by_date]. destruct (fst c <=? fst h)%Z eqn:E.
    + apply Z.leb_le in E. constructor.
      * now constructor.
      * constructor; [assumption|].
        rewrite Forall_forall in *. intros x Hx. specialize (Hh x Hx). lia.
    + apply Z.leb_gt in E. constructor; [exact IH|].
      apply (Permutation_Forall
               (Permutation_sym (insert_by_date_permutation c t))).
      constructor; [lia|assumption].
Qed.

Lemma sort_by_date_ascending (l : list cashflow) :
  ascending (sort_by_date l).
Proof.
  induction l as [|c l IH]; [constructor|].
  cbn [sort_by_date fold_right]. now apply insert_by_date_ascending.
Qed.

Lemma insert_by_date_stable (k : datetime) (c : cashflow)
    (l : list cashflow) :
  filter (fun x => (fst x =? k)%Z) (insert_by_date c l)
  = filter (fun x => (fst x =? k)%Z) (c :: l).
Proof.
  induction l as [|h t IH]; [reflexivity|].
  cbn [insert_by_date]. destruct (fst c <=? fst h)%Z eqn:E; [reflexivity|].
  apply Z.leb_gt in E. cbn [filter] in *.
  destruct (fst h =? k)%Z eqn:Hh.
  - rewrite IH. apply Z.eqb_eq in Hh.
    destruct (fst c =? k)%Z eqn:Hc; [|reflexivity].
    apply Z.eqb_eq in Hc. lia.
  - exact IH.
Qed.

Lemma sort_by_date_stable (k : datetime) (l : list cashflow) :
  filter (fun x => (fst x =? k)%Z) (sort_by_date l)
  = filter (fun x => (fst x =? k)%Z) l.
Proof.
  induction l as [|c l IH]; [reflexivity|].
  cbn [sort_by_date fold_right]. rewrite insert_by_date_stable.
  cbn [filter]. fold (sort_by_date l). now rewrite IH.
Qed.

(** X23. The cash flows of the main panel are the (date, amount) pairs of
    the rows of type Trade, rearranged into ascending date order with
    entries of the same date kept in the order of the export, followed by
    one last entry: the valuation, at midnight of the valuation date. *)
Theorem build_cashflows_sorted_trades (rows : list trade_row)
    (valuation_date : Z) (portfolio_now : R) :
  let pairs :=
    map (fun row => (TradeDate row, Amount row)) (filter is_trade rows) in
  exists trades,
    build_cashflows rows valuation_date portfolio_now
    = trades ++ [(midnight valuation_date, portfolio_now)] /\
    Permutation trades pairs /\
    ascending trades /\
    (forall k, filter (fun x => (fst x =? k)%Z) trades
               = filter (fun x => (fst x =? k)%Z) pairs) /\
    index_last (build_cashflows rows valuation_date portfolio_now)
    = Ok (midnight valuation_date, portfolio_now) /\
    is_date (midnight valuation_date).
Proof.
  intros pairs. exists (sort_by_date pairs).
  split; [reflexivity|].
  split; [apply sort_by_date_permutation|].
  split; [apply sort_by_date_ascending|].
  split; [intros k; apply sort_by_date_stable|].
  split; [apply index_last_app|].
  unfold is_date, midnight. apply Z.mod_mul. discriminate.
Qed.

(** X24. Under the guard of the main panel, a positive portfolio value,
    the appended valuation adds nothing to the invested total: the figure
    shown is the invested total of the entries of the rows of type Trade,
    summed in sorted order, and rows of another type do not count. *)
Theorem build_cashflows_total_invested (rows : list trade_row)
    (valuation_date : Z) (portfolio_now : R) :
  0 < portfolio_now ->
  total_invested (build_cashflows rows valuation_date portfolio_now)
  = total_invested
      (sort_by_date
         (map (fun row => (TradeDate row, Amount row))
            (filter is_trade rows))).
Proof.
  intros Hpos. unfold build_cashflows.
  rewrite total_invested_app, total_invested_valuation by lra.
  apply Rplus_0_r.
Qed.

Lemma build_cashflows_total_invested_witness :
  total_invested
    (build_cashflows
       [ {| RecordType := "Trade"; TradeDate := midnight 5;
            Amount := -200 |};
         {| RecordType := "Financial"; TradeDate := midnight 1;
            Amount := -50 |};
         {| RecordType := "Trade"; TradeDate := midnight 2;
            Amount := -300 |} ]
       9 1000)
  = total_invested
      (sort_by_date
         (map (fun row => (TradeDate row, Amount row))
            (filter is_trade
               [ {| RecordType := "Trade"; TradeDate := midnight 5;
                    Amount := -200 |};
                 {| RecordType := "Financial"; TradeDate := midnight 1;
                    Amount := -50 |};
                 {| RecordType := "Trade"; TradeDate := midnight 2;
                    Amount := -300 |} ]))).
Proof.
  apply build_cashflows_total_invested. lra.
Defined.

Lemma ascending_app_last (l : list cashflow) (x : cashflow) :
  ascending (l ++ [x])
  <-> ascending l /\ Forall (fun y => (fst y <= fst x)%Z) l.
Proof.
  unfold ascending. induction l as [|a l IH]; cbn [app].
  - split; [intros _; split; constructor|intros _; repeat constructor].
  - split.
    + intros H. inversion H as [|? ? Hl Ha]; subst.
      apply IH in Hl. destruct Hl as [Hl Hx].
      apply Forall_app in Ha. destruct Ha as [Ha Hax].
      split; [now constructor|]. constructor; [|assumption].
      now inversion Hax.
    + intros [H Hx]. inversion H as [|? ? Hl Ha]; subst.
      inversion Hx as [|? ? Hax Hlx]; subst.
      constructor; [apply IH; now split|].
      apply Forall_app. split; [assumption|]. now repeat constructor.
Qed.

(** X25. The valuation is appended after the sort, so the cash flows of
    the main panel are in ascending date order exactly when no row of type
    Trade is dated after midnight of the valuation date. *)
Theorem build_cashflows_ascending_iff (rows : list trade_row)
    (valuation_date : Z) (portfolio_now : R) :
  ascending (build_cashflows rows valuation_date portfolio_now)
  <-> (forall row, In row rows -> is_trade row = true ->
                   (TradeDate row <= midnight valuation_date)%Z).
Proof.
  unfold build_cashflows. rewrite ascending_app_last.
  set (pairs := map _ _). cbn [fst]. split.
  - intros [_ Hall] row Hin Htrade.
    apply (Permutation_Forall (sort_by_date_permutation pairs)) in Hall.
    rewrite Forall_forall in Hall.
    apply (Hall (TradeDate row, Amount row)).
    unfold pairs. apply in_map_iff. exists row. split; [reflexivity|].
    apply filter_In. now split.
  - intros H. split; [apply sort_by_date_ascending|].
    apply (Permutation_Forall
             (Permutation_sym (sort_by_date_permutation pairs))).
    apply Forall_forall. intros c Hc. unfold pairs in Hc.
    apply in_map_iff in Hc. destruct Hc as (row & <- & Hrow).
    apply filter_In in Hrow. destruct Hrow as [Hin Htrade].
    cbn [fst]. now apply H.
Qed.
